(** * Flash results screen (flash-results.tsx)

    A shallow embedding of the post-flash summary component: the completion
    icon, the effective speed, the per-category summary rows, the error
    table, and the two handlers of the "Failed targets" dialog. *)

From Stdlib Require Import ZArith List String Ascii Bool.
From Stdlib Require Import Floats.SpecFloat.
Import ListNotations.

Local Open Scope Z_scope.
Local Open Scope string_scope.

(** ** Numbers *)

(** The metrics of a flash (sizes, speeds) are JavaScript numbers: IEEE 754
    binary64 values, with [/] the correctly rounded division. *)
Module Num.

Definition number : Type := spec_float.

Definition prec : Z := 53.
Definition emax : Z := 1024.

(** [x / y] *)
Definition div (x y : number) : number := SFdiv prec emax x y.

(** An integer literal. *)
Definition of_Z (z : Z) : number := binary_normalize prec emax z 0 false.

End Num.

(** The two device counters are numbers as well; they count drives, so they
    are kept as integers. On an integer [q], [q === 0] is [q =? 0] and the
    truthiness of [q] is [q !== 0]. *)
Definition count : Type := Z.

Definition truthy_count (q : count) : bool := negb (q =? 0)%Z.

(** A string is truthy when it is not empty. *)
Definition truthy_string (s : string) : bool :=
  match s with
  | EmptyString => false
  | String _ _ => true
  end.

(** [a || b] on strings. *)
Definition or_string (a b : string) : string :=
  if truthy_string a then a else b.

Definition newline : string := String (ascii_of_nat 10) EmptyString.

(** ** Data model *)

(** [interface FlashError extends Error]: [message] is inherited. *)
Record FlashError : Type := mkFlashError {
  message : string;
  description : string;
  device : string;
  code : string
}.

Record SourceMetadata : Type := mkSourceMetadata {
  size : Num.number;
  blockmappedSize : Num.number
}.

(** The order in which the two keys of a [devices] object were inserted when
    the object was built. The type [{ failed: number; successful: number }]
    fixes the keys, not their order. *)
Inductive KeyOrder : Type :=
| FailedFirst
| SuccessfulFirst.

Record Devices : Type := mkDevices {
  failed : count;
  successful : count;
  keyOrder : KeyOrder
}.

Record Results : Type := mkResults {
  bytesWritten : Num.number;
  sourceMetadata : SourceMetadata;
  averageFlashingSpeed : Num.number;
  devices : Devices
}.

(** [Object.entries(results.devices)]: the own keys of the object with their
    values, in the order the keys were inserted. *)
Definition Object_entries (d : Devices) : list (string * count) :=
  match keyOrder d with
  | FailedFirst => [("failed", failed d); ("successful", successful d)]
  | SuccessfulFirst => [("successful", successful d); ("failed", failed d)]
  end.

(** ** Completion icon *)

Inductive Glyph : Type :=
| TimesCircleSvg
| CheckCircleSvg.

Record SvgStyle : Type := mkSvgStyle {
  style_width : string;
  style_height : string;
  style_marginTop : string;
  style_marginLeft : string;
  style_zIndex : Z;
  style_color : string
}.

Record SvgProps : Type := mkSvgProps {
  svg_width : string;
  svg_fill : string;
  svg_style : SvgStyle
}.

Record DoneIconProps : Type := mkDoneIconProps {
  skipped : bool;
  allFailed : bool;
  someFailed : bool
}.

Record IconElement : Type := mkIconElement {
  icon_glyph : Glyph;
  icon_props : SvgProps
}.

Definition DoneIcon (props : DoneIconProps) : IconElement :=
  let someOrAllFailed := allFailed props || someFailed props in
  let svgProps :=
    {| svg_width := "24px";
       svg_fill := if someOrAllFailed then "#c6c8c9" else "#1ac135";
       svg_style :=
         {| style_width := "28px";
            style_height := "28px";
            style_marginTop := "-25px";
            style_marginLeft := "13px";
            style_zIndex := 1;
            style_color := if someOrAllFailed then "#c6c8c9" else "#1ac135" |} |} in
  if allFailed props && negb (skipped props)
  then {| icon_glyph := TimesCircleSvg; icon_props := svgProps |}
  else {| icon_glyph := CheckCircleSvg; icon_props := svgProps |}.

(** ** Error formatting and the error table *)

Definition formatError (error : FlashError) : string :=
  device error ++ ": " ++ or_string (message error) (code error).

Definition formattedErrors (errors : list FlashError) : string :=
  String.concat newline (map formatError errors).

(** A column of the table: the field it shows, its header, and an optional
    renderer that receives the field's value and the whole row. *)
Record TableColumn : Type := mkTableColumn {
  field : string;
  label : string;
  render : option (string -> FlashError -> string)
}.

Definition columns : list TableColumn :=
  [ {| field := "description"; label := "Target"; render := None |};
    {| field := "device"; label := "Location"; render := None |};
    {| field := "message"; label := "Error";
       render := Some (fun message error =>
                         if truthy_string message then message else code error) |} ].

(** [row[field]] for the string fields of a [FlashError]. *)
Definition getField (error : FlashError) (name : string) : string :=
  if name =? "description" then description error
  else if name =? "device" then device error
  else if name =? "message" then message error
  else if name =? "code" then code error
  else "".

(** What the table shows in one cell: the renderer's result when the column
    has one, the field's value otherwise. *)
Definition cell (error : FlashError) (column : TableColumn) : string :=
  match render column with
  | Some f => f (getField error (field column)) error
  | None => getField error (field column)
  end.

Definition tableRow (cols : list TableColumn) (error : FlashError) : list string :=
  map (cell error) cols.

Definition ErrorsTable (cols : list TableColumn) (data : list FlashError)
  : list (list string) :=
  map (tableRow cols) data.

(** ** The component *)

Record CircleProps : Type := mkCircleProps {
  circle_width : string;
  circle_fill : string;
  circle_color : string
}.

(** What a click on a link of the screen does. *)
Inductive LinkAction : Type :=
| OpenErrorsInfo.   (* () => setShowErrorsInfo(true) *)

(** One summary row: the coloured circle, the quantity, the label with its
    tooltip ([None] for [undefined]), and the "more info" link when there is
    one. *)
Record SummaryRow : Type := mkSummaryRow {
  row_circle : CircleProps;
  row_quantity : count;
  row_label : string;
  row_tooltip : option string;
  row_moreInfo : option LinkAction
}.

Record ModalElement : Type := mkModalElement {
  modal_title : string;
  modal_action : string;
  modal_table : list (list string)
}.

(** The rendered screen. A [None] among [view_rows] is a [null] child: React
    renders nothing for it. *)
Record View : Type := mkView {
  view_icon : IconElement;
  view_skipNote : option string;
  view_rows : list (option SummaryRow);
  view_speed : option Num.number;
  view_modal : option ModalElement
}.

Section Component.

(** [progress] of [shared/messages]: the label of a category for a
    quantity. *)
Variable progress : string -> count -> string.

(** [bytesToMegabytes] of [shared/units]. *)
Variable bytesToMegabytes : Num.number -> Num.number.

(** lodash's [_.round (number, precision)]. *)
Variable round : Num.number -> Z -> Num.number.

Definition effectiveSpeed (results : Results) : Num.number :=
  round
    (bytesToMegabytes
       (Num.div (size (sourceMetadata results))
                (Num.div (bytesWritten results) (averageFlashingSpeed results))))
    1.

(** The callback mapped over [Object.entries (results.devices)]. *)
Definition summaryRow (errors : list FlashError) (entry : string * count)
  : option SummaryRow :=
  let '(type, quantity) := entry in
  let failedTargets := type =? "failed" in
  if truthy_count quantity then
    Some {| row_circle :=
              {| circle_width := "14px";
                 circle_fill := if type =? "failed" then "#ff4444" else "#1ac135";
                 circle_color := if failedTargets then "#ff4444" else "#1ac135" |};
            row_quantity := quantity;
            row_label := progress type quantity;
            row_tooltip := if failedTargets then Some (formattedErrors errors) else None;
            row_moreInfo := if failedTargets then Some OpenErrorsInfo else None |}
  else None.

Definition FlashResults (errors : list FlashError) (skip : bool)
           (results : Results) (showErrorsInfo : bool) : View :=
  let allFailed := (successful (devices results) =? 0)%Z in
  {| view_icon :=
       DoneIcon {| skipped := skip;
                   allFailed := allFailed;
                   someFailed := negb (failed (devices results) =? 0)%Z |};
     view_skipNote := if skip then Some "Validation has been skipped" else None;
     view_rows := map (summaryRow errors) (Object_entries (devices results));
     view_speed := if negb allFailed then Some (effectiveSpeed results) else None;
     view_modal :=
       if showErrorsInfo
       then Some {| modal_title := "Failed targets";
                    modal_action := "Retry failed targets";
                    modal_table := ErrorsTable columns errors |}
       else None |}.

End Component.

(** ** The models behind the dialog *)

(** Modelled from the spec: the selection-state module ([models/selection-state])
    is a drive-selection query/mutation interface: it lists the currently
    selected drives and deselects a drive by its device id. *)
Module Selection.

Record Drive : Type := mkDrive {
  device : string;
  displayName : string
}.

(** The store: the drives that are selected, in the order they are
    listed. *)
Definition State : Type := list Drive.

Definition getSelectedDrives (s : State) : list Drive := s.

Definition deselectDrive (driveDevice : string) (s : State) : State :=
  filter (fun drive => negb (device drive =? driveDevice)) s.

End Selection.

Section Dialog.

(** Modelled from the spec: [resetState] of [models/flash-state] is a global
    reset function for the flash-session state; the state it resets and the
    value it resets it to are left open. *)
Variable FlashState : Type.
Variable defaultFlashState : FlashState.

(** The effects a handler can have, in the order they happen. *)
Inductive Effect : Type :=
| SetShowErrorsInfo (visible : bool)
| ResetState
| DeselectDrive (driveDevice : string)
| GoToMain.

Record World : Type := mkWorld {
  showErrorsInfo : bool;
  flashState : FlashState;
  selection : Selection.State;
  trace : list Effect
}.

(** Handlers run in a state monad over the world. *)
Definition M (A : Type) : Type := World -> A * World.

Definition ret {A : Type} (a : A) : M A := fun w => (a, w).

Definition bind {A B : Type} (c : M A) (k : A -> M B) : M B :=
  fun w => let '(a, w') := c w in k a w'.

Definition exec {A : Type} (c : M A) (w : World) : World := snd (c w).

Definition emit (e : Effect) (w : World) : World :=
  {| showErrorsInfo := showErrorsInfo w;
     flashState := flashState w;
     selection := selection w;
     trace := trace w ++ [e] |}.

Definition setShowErrorsInfo (visible : bool) : M unit :=
  fun w =>
    (tt, emit (SetShowErrorsInfo visible)
           {| showErrorsInfo := visible;
              flashState := flashState w;
              selection := selection w;
              trace := trace w |}).

Definition resetState : M unit :=
  fun w =>
    (tt, emit ResetState
           {| showErrorsInfo := showErrorsInfo w;
              flashState := defaultFlashState;
              selection := selection w;
              trace := trace w |}).

Definition getSelectedDrives : M (list Selection.Drive) :=
  fun w => (Selection.getSelectedDrives (selection w), w).

Definition deselectDrive (driveDevice : string) : M unit :=
  fun w =>
    (tt, emit (DeselectDrive driveDevice)
           {| showErrorsInfo := showErrorsInfo w;
              flashState := flashState w;
              selection := Selection.deselectDrive driveDevice (selection w);
              trace := trace w |}).

(** The caller's navigation callback; what it does beyond being called is
    the caller's business. *)
Definition goToMain : M unit :=
  fun w => (tt, emit GoToMain w).

Fixpoint forEach {A : Type} (l : list A) (f : A -> M unit) : M unit :=
  match l with
  | [] => ret tt
  | x :: l' => bind (f x) (fun _ => forEach l' f)
  end.

End Dialog.

Arguments ret {FlashState A} a.
Arguments bind {FlashState A B} c k.
Arguments exec {FlashState A} c w.
Arguments forEach {FlashState A} l f.
Arguments setShowErrorsInfo {FlashState} visible.
Arguments getSelectedDrives {FlashState}.
Arguments deselectDrive {FlashState} driveDevice.
Arguments goToMain {FlashState}.
Arguments showErrorsInfo {FlashState} w.
Arguments flashState {FlashState} w.
Arguments selection {FlashState} w.
Arguments trace {FlashState} w.
Arguments emit {FlashState} e w.

Declare Scope handler_scope.
Delimit Scope handler_scope with handler.
Notation "x <- c ;; k" := (bind c (fun x => k))
  (at level 61, c at next level, right associativity) : handler_scope.
Notation "c ;; k" := (bind c (fun _ => k))
  (at level 61, right associativity) : handler_scope.

Section Handlers.

Variable FlashState : Type.
Variable defaultFlashState : FlashState.
Variable errors : list FlashError.

Local Open Scope handler_scope.

(** [errors.every ((error) => error.device !== drive.device)] *)
Definition notFailed (drive : Selection.Drive) : bool :=
  forallb (fun error => negb (device error =? Selection.device drive)) errors.

(** [cancel] of the modal. *)
Definition Modal_cancel : M FlashState unit :=
  setShowErrorsInfo false.

(** [done] of the modal. *)
Definition Modal_done : M FlashState unit :=
  setShowErrorsInfo false ;;
  resetState FlashState defaultFlashState ;;
  drives <- getSelectedDrives ;;
  forEach (filter notFailed drives)
          (fun drive => deselectDrive (Selection.device drive)) ;;
  goToMain.

End Handlers.

(** The drives left after deselecting, one after the other, the devices of
    [drives]. *)
Definition deselectAll (drives : list Selection.Drive) (s : Selection.State)
  : Selection.State :=
  fold_left (fun s' drive => Selection.deselectDrive (Selection.device drive) s')
            drives s.

(** What a click on a link does to the world. *)
Definition Link_onClick {FlashState : Type} (action : LinkAction) : M FlashState unit :=
  match action with
  | OpenErrorsInfo => setShowErrorsInfo true
  end.

(** ** The claims in the spec's own words *)

(** The text of the Error column: the message when there is one, the code
    otherwise. *)
Definition spec_errorText (error : FlashError) : string :=
  match message error with
  | EmptyString => code error
  | String _ _ => message error
  end.

(** One tooltip line: ["<device>: <message-or-code>"]. *)
Definition spec_tooltipLine (error : FlashError) : string :=
  device error ++ ": " ++ spec_errorText error.

(** The lines of all errors, in order, a newline between two lines. *)
Fixpoint spec_tooltip (errors : list FlashError) : string :=
  match errors with
  | [] => ""
  | [error] => spec_tooltipLine error
  | error :: (_ :: _) as rest => spec_tooltipLine error ++ newline ++ spec_tooltip rest
  end.

(** A drive is among the failed ones when some error carries its device id. *)
Definition spec_failedDrive (errors : list FlashError) (drive : Selection.Drive) : Prop :=
  exists error, In error errors /\ device error = Selection.device drive.

(** ** Notions used to state further properties *)

(** The devices of the [deselectDrive] calls of a trace, in order. *)
Definition deselections (t : list Effect) : list string :=
  flat_map (fun e => match e with
                     | DeselectDrive driveDevice => [driveDevice]
                     | _ => []
                     end) t.

(** What a handler added to the trace of the world it started from. *)
Definition effectsSince {FlashState : Type} (w w' : World FlashState) : list Effect :=
  skipn (List.length (trace w)) (trace w').

(** The children of the summary that React renders: the ones that are not
    [null]. *)
Definition renderedRows (children : list (option SummaryRow)) : list SummaryRow :=
  flat_map (fun child => match child with
                         | Some row => [row]
                         | None => []
                         end) children.

(** The row of the failed devices and the row of the successful ones, as
    they appear when their quantity is not zero. *)
Definition failedRow (progress : string -> count -> string)
           (errors : list FlashError) (quantity : count) : SummaryRow :=
  {| row_circle := {| circle_width := "14px";
                      circle_fill := "#ff4444";
                      circle_color := "#ff4444" |};
     row_quantity := quantity;
     row_label := progress "failed" quantity;
     row_tooltip := Some (formattedErrors errors);
     row_moreInfo := Some OpenErrorsInfo |}.

Definition successfulRow (progress : string -> count -> string)
           (quantity : count) : SummaryRow :=
  {| row_circle := {| circle_width := "14px";
                      circle_fill := "#1ac135";
                      circle_color := "#1ac135" |};
     row_quantity := quantity;
     row_label := progress "successful" quantity;
     row_tooltip := None;
     row_moreInfo := None |}.

Definition hasMoreInfo (row : SummaryRow) : bool :=
  match row_moreInfo row with
  | Some _ => true
  | None => false
  end.

(** How many times a character occurs in a string. *)
Fixpoint occurrences (c : ascii) (s : string) : nat :=
  match s with
  | EmptyString => O
  | String c' s' => ((if Ascii.eqb c c' then 1 else 0) + occurrences c s')%nat
  end.

Definition lineFeed : ascii := ascii_of_nat 10.

(** A string without line break. *)
Definition singleLine (s : string) : Prop := occurrences lineFeed s = O.

(** An error whose texts have no line break. *)
Definition singleLineError (error : FlashError) : Prop :=
  singleLine (device error) /\ singleLine (message error) /\ singleLine (code error).

(** ** Sample inputs *)

Definition sample_error : FlashError :=
  {| message := "write failed"; description := "SanDisk Ultra";
     device := "/dev/sdb"; code := "EIO" |}.

Definition sample_error_without_message : FlashError :=
  {| message := ""; description := "Kingston";
     device := "/dev/sdc"; code := "EVALIDATION" |}.

(** Nothing written, the only drive failed. *)
Definition sample_failed_results : Results :=
  {| bytesWritten := Num.of_Z 0;
     sourceMetadata := {| size := Num.of_Z 200; blockmappedSize := Num.of_Z 200 |};
     averageFlashingSpeed := Num.of_Z 10;
     devices := {| failed := 1; successful := 0; keyOrder := FailedFirst |} |}.

(** The spec's example: two drives flashed, none failed. *)
Definition sample_clean_results : Results :=
  {| bytesWritten := Num.of_Z 100;
     sourceMetadata := {| size := Num.of_Z 200; blockmappedSize := Num.of_Z 200 |};
     averageFlashingSpeed := Num.of_Z 10;
     devices := {| failed := 0; successful := 2; keyOrder := FailedFirst |} |}.

(** Bytes were written, but the average speed is reported as zero. *)
Definition sample_stalled_results : Results :=
  {| bytesWritten := Num.of_Z 100;
     sourceMetadata := {| size := Num.of_Z 200; blockmappedSize := Num.of_Z 200 |};
     averageFlashingSpeed := Num.of_Z 0;
     devices := {| failed := 0; successful := 1; keyOrder := FailedFirst |} |}.

(** Two drives flashed and one failed, in an object built with its
    [successful] key first: [{ successful: 2, failed: 1 }]. *)
Definition sample_successful_first_results : Results :=
  {| bytesWritten := Num.of_Z 100;
     sourceMetadata := {| size := Num.of_Z 200; blockmappedSize := Num.of_Z 200 |};
     averageFlashingSpeed := Num.of_Z 10;
     devices := {| failed := 1; successful := 2; keyOrder := SuccessfulFirst |} |}.

(** Stand-ins for the three functions the screen takes from elsewhere. *)
Definition sample_progress (type : string) (quantity : count) : string := type.
Definition sample_bytesToMegabytes (bytes : Num.number) : Num.number :=
  Num.div bytes (Num.of_Z 1000000).
Definition sample_round (x : Num.number) (precision : Z) : Num.number := x.

(** * Properties *)

(** ** Basic facts *)

Lemma truthy_count_nonzero (q : count) : truthy_count q = true <-> q <> 0%Z.
Proof.
  unfold truthy_count. rewrite negb_true_iff. apply Z.eqb_neq.
Qed.

Lemma truthy_count_zero (q : count) : truthy_count q = false <-> q = 0%Z.
Proof.
  unfold truthy_count. rewrite negb_false_iff. apply Z.eqb_eq.
Qed.

Lemma or_string_spec (error : FlashError) :
  or_string (message error) (code error) = spec_errorText error.
Proof.
  unfold or_string, spec_errorText. destruct (message error); reflexivity.
Qed.

Lemma formatError_spec (error : FlashError) :
  formatError error = spec_tooltipLine error.
Proof.
  unfold formatError, spec_tooltipLine. now rewrite or_string_spec.
Qed.

Lemma formattedErrors_spec (errors : list FlashError) :
  formattedErrors errors = spec_tooltip errors.
Proof.
  unfold formattedErrors.
  induction errors as [| error rest IH]; [reflexivity |].
  destruct rest as [| error' rest'].
  - simpl. apply formatError_spec.
  - change (String.concat newline (map formatError (error :: error' :: rest')))
      with (formatError error ++ newline
              ++ String.concat newline (map formatError (error' :: rest'))).
    rewrite IH, formatError_spec. reflexivity.
Qed.

Lemma notFailed_false_iff (errors : list FlashError) (drive : Selection.Drive) :
  notFailed errors drive = false <-> spec_failedDrive errors drive.
Proof.
  unfold notFailed, spec_failedDrive. split.
  - intros H. induction errors as [| e es IH]; simpl in H; [discriminate |].
    apply andb_false_iff in H. destruct H as [H | H].
    + apply negb_false_iff, String.eqb_eq in H. exists e. split; [now left | exact H].
    + destruct (IH H) as [e' [Hin Heq]]. exists e'. split; [now right | exact Heq].
  - intros [e [Hin Heq]].
    destruct (forallb _ errors) eqn:Hall; [| reflexivity].
    rewrite forallb_forall in Hall. specialize (Hall e Hin).
    apply negb_true_iff, String.eqb_neq in Hall. contradiction.
Qed.

Lemma notFailed_same_device (errors : list FlashError) (d1 d2 : Selection.Drive) :
  Selection.device d1 = Selection.device d2 ->
  notFailed errors d1 = notFailed errors d2.
Proof.
  intros H. unfold notFailed. now rewrite H.
Qed.

(** ** Running the deselection loop *)

Section Loop.

Variable FlashState : Type.

Lemma deselectAll_filter (drives : list Selection.Drive) (s : Selection.State) :
  deselectAll drives s =
  filter (fun x => negb (existsb (fun d => Selection.device x =? Selection.device d) drives)) s.
Proof.
  unfold deselectAll. revert s.
  induction drives as [| d ds IH]; intros s; simpl.
  - induction s as [| x xs IHs]; simpl; [reflexivity | now rewrite <- IHs].
  - rewrite IH. unfold Selection.deselectDrive.
    induction s as [| x xs IHs]; simpl; [reflexivity |].
    destruct (Selection.device x =? Selection.device d); simpl.
    + exact IHs.
    + destruct (existsb _ ds); simpl; [exact IHs | now rewrite IHs].
Qed.

Lemma forEach_deselect (drives : list Selection.Drive) (w : World FlashState) :
  let w' := exec (forEach drives (fun drive => deselectDrive (Selection.device drive))) w in
  showErrorsInfo w' = showErrorsInfo w /\
  flashState w' = flashState w /\
  selection w' = deselectAll drives (selection w) /\
  trace w' = (trace w ++ map (fun drive => DeselectDrive (Selection.device drive)) drives)%list.
Proof.
  revert w. induction drives as [| d ds IH]; intros w.
  - simpl. repeat split. now rewrite app_nil_r.
  - specialize (IH (exec (deselectDrive (Selection.device d)) w)).
    cbn zeta in IH. destruct IH as (H1 & H2 & H3 & H4).
    unfold exec in *. simpl in *. unfold bind. simpl.
    rewrite H1, H2, H3, H4. repeat split.
    now rewrite <- app_assoc.
Qed.

Lemma deselect_notFailed (errors : list FlashError) (s : Selection.State) :
  deselectAll (filter (notFailed errors) s) s =
  filter (fun drive => negb (notFailed errors drive)) s.
Proof.
  rewrite deselectAll_filter. apply filter_ext_in. intros x Hx. f_equal.
  destruct (notFailed errors x) eqn:Hnf.
  - apply existsb_exists. exists x. split.
    + apply filter_In. now split.
    + apply String.eqb_refl.
  - destruct (existsb _ _) eqn:Hex; [| reflexivity].
    apply existsb_exists in Hex. destruct Hex as [d [Hd Heq]].
    apply filter_In in Hd. destruct Hd as [_ Hd].
    apply String.eqb_eq in Heq.
    rewrite (notFailed_same_device errors x d Heq) in Hnf. congruence.
Qed.

End Loop.

Section Screen.

Variable progress : string -> count -> string.
Variable bytesToMegabytes : Num.number -> Num.number.
Variable round : Num.number -> Z -> Num.number.

(** ** A sample run *)

(** A flash of a 200-byte image: 100 bytes written at 10 bytes/s, two drives
    flashed and none failed, validation not skipped. The success glyph is
    green, only the "successful" row is there, and the speed shown is
    [200 / (100 / 10) = 20] bytes/s, converted and rounded. *)
Example sample_screen :
  FlashResults progress bytesToMegabytes round [] false
    {| bytesWritten := Num.of_Z 100;
       sourceMetadata := {| size := Num.of_Z 200; blockmappedSize := Num.of_Z 200 |};
       averageFlashingSpeed := Num.of_Z 10;
       devices := {| failed := 0; successful := 2; keyOrder := FailedFirst |} |}
    false =
  {| view_icon := DoneIcon {| skipped := false; allFailed := false; someFailed := false |};
     view_skipNote := None;
     view_rows :=
       [ None;
         Some {| row_circle := {| circle_width := "14px";
                                  circle_fill := "#1ac135";
                                  circle_color := "#1ac135" |};
                 row_quantity := 2;
                 row_label := progress "successful" 2;
                 row_tooltip := None;
                 row_moreInfo := None |} ];
     view_speed := Some (round (bytesToMegabytes (Num.of_Z 20)) 1);
     view_modal := None |}.
Proof. reflexivity. Qed.

(** ** The completion icon *)

(** C2: the completion glyph is the failure glyph exactly when no device
    succeeded ([results.devices.successful === 0]) and [skip] is false; in
    every other case it is the success glyph. *)
Theorem done_icon_glyph (errors : list FlashError) (skip : bool)
        (results : Results) (show : bool) :
  let glyph := icon_glyph (view_icon
    (FlashResults progress bytesToMegabytes round errors skip results show)) in
  (glyph = TimesCircleSvg <->
     successful (devices results) = 0%Z /\ skip = false) /\
  (glyph = CheckCircleSvg <->
     successful (devices results) <> 0%Z \/ skip = true).
Proof.
  cbn zeta. unfold FlashResults, DoneIcon. cbn [view_icon allFailed skipped].
  destruct (Z.eqb_spec (successful (devices results)) 0) as [Hz | Hnz];
    destruct skip; cbn; (split; split);
    try discriminate; intuition (try discriminate; try congruence).
Qed.

(** C9: the icon's colour (its [fill] and its style's [color]) is the
    neutral gray when a failure occurred ([failed !== 0] or
    [successful === 0]) and green when some device succeeded and none
    failed, whichever glyph is shown. *)
Theorem done_icon_color (errors : list FlashError) (skip : bool)
        (results : Results) (show : bool) :
  let props := icon_props (view_icon
    (FlashResults progress bytesToMegabytes round errors skip results show)) in
  let anyFailure :=
    failed (devices results) <> 0%Z \/ successful (devices results) = 0%Z in
  let fullSuccess :=
    successful (devices results) <> 0%Z /\ failed (devices results) = 0%Z in
  style_color (svg_style props) = svg_fill props /\
  (svg_fill props = "#c6c8c9" <-> anyFailure) /\
  (svg_fill props = "#1ac135" <-> fullSuccess).
Proof.
  cbn zeta. unfold FlashResults, DoneIcon.
  cbn [view_icon allFailed skipped someFailed].
  destruct (Z.eqb_spec (successful (devices results)) 0) as [Hs | Hs];
    destruct (Z.eqb_spec (failed (devices results)) 0) as [Hf | Hf];
    destruct skip; cbn;
    (split; [reflexivity | split; split]);
    try discriminate; intuition (try discriminate; try congruence).
Qed.

(** ** The effective speed *)

(** C4: the effective speed is not on the screen when no device succeeded
    ([results.devices.successful === 0]), and it is when at least one
    did. *)
Theorem effective_speed_guard (errors : list FlashError) (skip : bool)
        (results : Results) (show : bool) :
  let speed := view_speed
    (FlashResults progress bytesToMegabytes round errors skip results show) in
  (speed = None <-> successful (devices results) = 0%Z) /\
  (speed = Some (effectiveSpeed bytesToMegabytes round results) <->
     successful (devices results) <> 0%Z).
Proof.
  cbn zeta. unfold FlashResults. cbn [view_speed].
  destruct (Z.eqb_spec (successful (devices results)) 0) as [Hs | Hs]; cbn;
    (split; split); try discriminate; intuition (try discriminate; try congruence).
Qed.


(** ** The summary rows *)

(** The row of a category, whatever the category. *)
Lemma summaryRow_some (errors : list FlashError) (type : string) (quantity : count) :
  quantity <> 0%Z ->
  summaryRow progress errors (type, quantity) =
    Some {| row_circle :=
              {| circle_width := "14px";
                 circle_fill := if type =? "failed" then "#ff4444" else "#1ac135";
                 circle_color := if type =? "failed" then "#ff4444" else "#1ac135" |};
            row_quantity := quantity;
            row_label := progress type quantity;
            row_tooltip :=
              if type =? "failed" then Some (formattedErrors errors) else None;
            row_moreInfo := if type =? "failed" then Some OpenErrorsInfo else None |}.
Proof.
  intros H. apply truthy_count_nonzero in H.
  unfold summaryRow. now rewrite H.
Qed.

Lemma summaryRow_none (errors : list FlashError) (type : string) (quantity : count) :
  summaryRow progress errors (type, quantity) = None <-> quantity = 0%Z.
Proof.
  rewrite <- truthy_count_zero. unfold summaryRow.
  destruct (truthy_count quantity); split; intros H; try reflexivity; discriminate.
Qed.

Lemma view_rows_entries (errors : list FlashError) (skip : bool)
      (results : Results) (show : bool) :
  view_rows (FlashResults progress bytesToMegabytes round errors skip results show) =
    match keyOrder (devices results) with
    | FailedFirst =>
        [ summaryRow progress errors ("failed", failed (devices results));
          summaryRow progress errors ("successful", successful (devices results)) ]
    | SuccessfulFirst =>
        [ summaryRow progress errors ("successful", successful (devices results));
          summaryRow progress errors ("failed", failed (devices results)) ]
    end.
Proof.
  unfold FlashResults, Object_entries. cbn [view_rows].
  destruct (keyOrder (devices results)); reflexivity.
Qed.

Lemma summaryRow_failed (errors : list FlashError) (quantity : count) :
  summaryRow progress errors ("failed", quantity) =
  if (quantity =? 0)%Z then None else Some (failedRow progress errors quantity).
Proof.
  unfold summaryRow, truthy_count. destruct (quantity =? 0)%Z; reflexivity.
Qed.

Lemma summaryRow_successful (errors : list FlashError) (quantity : count) :
  summaryRow progress errors ("successful", quantity) =
  if (quantity =? 0)%Z then None else Some (successfulRow progress quantity).
Proof.
  unfold summaryRow, truthy_count. destruct (quantity =? 0)%Z; reflexivity.
Qed.

(** C5: entry by entry of [results.devices], the screen has a summary row
    (indicator, count, label) for the category if and only if the
    category's quantity is not zero; a quantity of 0 gives no row. *)
Theorem summary_row_iff_nonzero (errors : list FlashError) (skip : bool)
        (results : Results) (show : bool) :
  Forall2
    (fun entry child =>
       let '(type, quantity) := entry in
       (child = None <-> quantity = 0%Z) /\
       ((exists row,
            child = Some row /\
            row_quantity row = quantity /\
            row_label row = progress type quantity /\
            circle_fill (row_circle row) = circle_color (row_circle row))
        <-> quantity <> 0%Z))
    (Object_entries (devices results))
    (view_rows (FlashResults progress bytesToMegabytes round errors skip results show)).
Proof.
  rewrite view_rows_entries. unfold Object_entries.
  destruct (keyOrder (devices results)).
  all: constructor; [| constructor; [| constructor]].
  all: split; [apply summaryRow_none | split].
  all: try (intros (row & Hrow & _) Hz;
            rewrite (proj2 (summaryRow_none _ _ _) Hz) in Hrow; discriminate).
  all: intros Hnz; rewrite (summaryRow_some _ _ _ Hnz); eexists; repeat split.
Qed.

(** C10, amended: the categories of the summary rows are the two keys of
    [results.devices], "failed" and "successful", each once, iterated in the
    object's own key order, which is either one first; there is one child
    per key, in that order, and every rendered row is the row of the failed
    or of the successful devices: no other category, "skipped" included, is
    among them. *)
Theorem summary_categories (errors : list FlashError) (skip : bool)
        (results : Results) (show : bool) :
  let keys := map fst (Object_entries (devices results)) in
  let rows :=
    view_rows (FlashResults progress bytesToMegabytes round errors skip results show) in
  (keys = ["failed"; "successful"] \/ keys = ["successful"; "failed"]) /\
  Forall2
    (fun type child =>
       child = summaryRow progress errors
                 (type, if type =? "failed" then failed (devices results)
                        else successful (devices results)))
    keys rows /\
  ~ In "skipped" keys /\
  (forall type, In type keys <-> type = "failed" \/ type = "successful") /\
  Forall
    (fun row =>
       row = failedRow progress errors (failed (devices results)) \/
       row = successfulRow progress (successful (devices results)))
    (renderedRows rows).
Proof.
  cbn zeta. split; [| split; [| split; [| split]]].
  - unfold Object_entries. destruct (keyOrder (devices results)); cbn; auto.
  - rewrite view_rows_entries. unfold Object_entries.
    destruct (keyOrder (devices results)); cbn [map fst];
      repeat (apply Forall2_cons; [reflexivity |]); apply Forall2_nil.
  - unfold Object_entries. destruct (keyOrder (devices results)); simpl;
      intros [H | [H | []]]; discriminate.
  - intros type. unfold Object_entries.
    destruct (keyOrder (devices results)); simpl; split;
      try (intros [H | [H | []]]; auto); intros [H | H]; auto.
  - rewrite view_rows_entries, !summaryRow_failed, !summaryRow_successful.
    destruct (keyOrder (devices results));
      destruct (failed (devices results) =? 0)%Z;
      destruct (successful (devices results) =? 0)%Z; cbn.
    all: repeat (apply Forall_cons; [first [now left | now right] |]).
    all: apply Forall_nil.
Qed.

(** C6: among the summary rows only the row of the "failed" category has a
    tooltip and a "more info" link, and the screen has that row, with both,
    exactly when the quantity of failed devices is not zero. The tooltip is
    the lines ["<device>: <message, or code when the message is empty>"] of
    the errors, in order, joined by newlines; a click on the link opens the
    error dialog. *)
Theorem failed_row_tooltip (errors : list FlashError) (skip : bool)
        (results : Results) (show : bool) :
  let rows :=
    view_rows (FlashResults progress bytesToMegabytes round errors skip results show) in
  Forall2
    (fun entry child =>
       forall row, child = Some row ->
         (fst entry = "failed" ->
            row_tooltip row = Some (spec_tooltip errors) /\
            row_moreInfo row = Some OpenErrorsInfo) /\
         (fst entry <> "failed" ->
            row_tooltip row = None /\ row_moreInfo row = None))
    (Object_entries (devices results)) rows /\
  ((exists row,
       In (Some row) rows /\
       row_quantity row = failed (devices results) /\
       row_label row = progress "failed" (failed (devices results)) /\
       row_tooltip row = Some (spec_tooltip errors) /\
       row_moreInfo row = Some OpenErrorsInfo)
   <-> failed (devices results) <> 0%Z) /\
  ((exists row, In (Some row) rows /\ row_tooltip row <> None)
   <-> failed (devices results) <> 0%Z) /\
  ((exists row, In (Some row) rows /\ row_moreInfo row <> None)
   <-> failed (devices results) <> 0%Z) /\
  (forall (FlashState : Type) (w : World FlashState),
      let w' := exec (Link_onClick OpenErrorsInfo) w in
      showErrorsInfo w' = true /\
      view_modal (FlashResults progress bytesToMegabytes round errors skip results
                               (showErrorsInfo w')) <> None).
Proof.
  cbn zeta. rewrite view_rows_entries.
  rewrite !summaryRow_failed, !summaryRow_successful.
  split; [| split; [| split; [| split]]].
  - unfold Object_entries.
    destruct (keyOrder (devices results));
      (constructor; [| constructor; [| constructor]]).
    all: intros row Hrow.
    all: destruct (_ =? 0)%Z; [discriminate |].
    all: injection Hrow as <-; cbn.
    all: rewrite <- formattedErrors_spec.
    all: split; intros H; try discriminate; try congruence; auto.
  - rewrite <- Z.eqb_neq, <- formattedErrors_spec. split.
    + intros (row & Hin & _ & _ & _ & Hlink).
      destruct (failed (devices results) =? 0)%Z; [| reflexivity].
      destruct (keyOrder (devices results));
        destruct (successful (devices results) =? 0)%Z; cbn in Hin.
      all: repeat (destruct Hin as [Hin | Hin]; try discriminate; try contradiction).
      all: injection Hin as <-; discriminate.
    + intros Hnz. rewrite Hnz.
      exists (failedRow progress errors (failed (devices results))).
      split; [| repeat split].
      destruct (keyOrder (devices results)); cbn; auto.
  - rewrite <- Z.eqb_neq. split.
    + intros (row & Hin & Htip).
      destruct (failed (devices results) =? 0)%Z; [| reflexivity].
      destruct (keyOrder (devices results));
        destruct (successful (devices results) =? 0)%Z; cbn in Hin.
      all: repeat (destruct Hin as [Hin | Hin]; try discriminate; try contradiction).
      all: injection Hin as <-; now contradiction Htip.
    + intros Hnz. rewrite Hnz.
      exists (failedRow progress errors (failed (devices results))).
      split; [| discriminate].
      destruct (keyOrder (devices results)); cbn; auto.
  - rewrite <- Z.eqb_neq. split.
    + intros (row & Hin & Hlink).
      destruct (failed (devices results) =? 0)%Z; [| reflexivity].
      destruct (keyOrder (devices results));
        destruct (successful (devices results) =? 0)%Z; cbn in Hin.
      all: repeat (destruct Hin as [Hin | Hin]; try discriminate; try contradiction).
      all: injection Hin as <-; now contradiction Hlink.
    + intros Hnz. rewrite Hnz.
      exists (failedRow progress errors (failed (devices results))).
      split; [| discriminate].
      destruct (keyOrder (devices results)); cbn; auto.
  - intros FlashState w. cbn. split; [reflexivity | discriminate].
Qed.

(** ** The error table *)

Lemma tableRow_columns (error : FlashError) :
  tableRow columns error = [description error; device error; spec_errorText error].
Proof.
  unfold tableRow, columns, cell, spec_errorText. cbn.
  destruct (message error); reflexivity.
Qed.

(** C7: the dialog's table has one row per error with the columns Target,
    Location and Error; the Error column shows the error's message when
    there is one and its code otherwise. *)
Theorem error_column_fallback (errors : list FlashError) (skip : bool)
        (results : Results) (show : bool) :
  map label columns = ["Target"; "Location"; "Error"] /\
  option_map modal_table
    (view_modal (FlashResults progress bytesToMegabytes round errors skip results show)) =
    (if show
     then Some (map (fun error => [description error; device error;
                                   match message error with
                                   | EmptyString => code error
                                   | String _ _ => message error
                                   end]) errors)
     else None).
Proof.
  split; [reflexivity |].
  unfold FlashResults. cbn [view_modal]. destruct show; [| reflexivity].
  cbn. f_equal. unfold ErrorsTable. apply map_ext. intros error.
  apply tableRow_columns.
Qed.

End Screen.

(** C10, counterexample: for [{ successful: 2, failed: 1 }] the keys are
    iterated "successful" first, and the first row of the screen is the
    green row of the successful devices, not the row of the failed ones. *)
Lemma summary_categories_counterexample :
  map fst (Object_entries (devices sample_successful_first_results)) =
    ["successful"; "failed"] /\
  map fst (Object_entries (devices sample_successful_first_results)) <>
    ["failed"; "successful"] /\
  view_rows (FlashResults sample_progress sample_bytesToMegabytes sample_round
                          [sample_error] false sample_successful_first_results false) =
    [ Some (successfulRow sample_progress 2);
      Some (failedRow sample_progress [sample_error] 1) ].
Proof.
  split; [reflexivity | split; [discriminate | reflexivity]].
Qed.

(** One drive failed: its row is on the screen, with the tooltip
    ["/dev/sdb: write failed"] and the "more info" link. *)
Example sample_failed_row :
  view_rows (FlashResults sample_progress sample_bytesToMegabytes sample_round
                          [sample_error] false sample_failed_results false) =
  [ Some {| row_circle := {| circle_width := "14px";
                             circle_fill := "#ff4444";
                             circle_color := "#ff4444" |};
            row_quantity := 1;
            row_label := "failed";
            row_tooltip := Some "/dev/sdb: write failed";
            row_moreInfo := Some OpenErrorsInfo |};
    None ].
Proof. reflexivity. Qed.

(** ** The dialog's handlers *)

Section DialogHandlers.

Variable FlashState : Type.
Variable defaultFlashState : FlashState.
Variable errors : list FlashError.

(** Three drives are selected and the second one failed: confirming keeps
    it and deselects the two others, first to last. *)
Example sample_done :
  exec (Modal_done FlashState defaultFlashState
          [ {| message := ""; description := "SanDisk Ultra";
               device := "/dev/sdb"; code := "EVALIDATION" |} ])
       {| showErrorsInfo := true;
          flashState := defaultFlashState;
          selection := [ Selection.mkDrive "/dev/sda" "Kingston";
                         Selection.mkDrive "/dev/sdb" "SanDisk Ultra";
                         Selection.mkDrive "/dev/sdc" "Generic" ];
          trace := [] |} =
  {| showErrorsInfo := false;
     flashState := defaultFlashState;
     selection := [ Selection.mkDrive "/dev/sdb" "SanDisk Ultra" ];
     trace := [ SetShowErrorsInfo false; ResetState;
                DeselectDrive "/dev/sda"; DeselectDrive "/dev/sdc"; GoToMain ] |}.
Proof. reflexivity. Qed.

(** C8: cancelling the dialog sets the visibility flag to false and does
    nothing else: the flash state and the selection are untouched, and the
    only effect is the flag's update (no reset, no deselection, no call of
    [goToMain]). *)
Theorem cancel_only_hides (w : World FlashState) :
  let w' := exec (Modal_cancel FlashState) w in
  showErrorsInfo w' = false /\
  flashState w' = flashState w /\
  selection w' = selection w /\
  trace w' = (trace w ++ [SetShowErrorsInfo false])%list.
Proof.
  cbn. repeat split.
Qed.

(** C1: confirming the dialog hides it, resets the flash state, deselects
    every selected drive whose device differs from the device of every
    error, so that exactly the selected drives whose device is in the
    error list stay selected, and then calls [goToMain]. *)
Theorem done_keeps_failed (w : World FlashState) :
  let w' := exec (Modal_done FlashState defaultFlashState errors) w in
  showErrorsInfo w' = false /\
  flashState w' = defaultFlashState /\
  selection w' =
    filter (fun drive => negb (notFailed errors drive)) (selection w) /\
  (forall drive,
      In drive (selection w') <->
      In drive (selection w) /\ spec_failedDrive errors drive) /\
  trace w' =
    (trace w
       ++ [SetShowErrorsInfo false; ResetState]
       ++ map (fun drive => DeselectDrive (Selection.device drive))
              (filter (notFailed errors) (selection w))
       ++ [GoToMain])%list.
Proof.
  cbn zeta.
  set (w1 := exec (resetState FlashState defaultFlashState)
                  (exec (setShowErrorsInfo false) w)).
  pose proof (forEach_deselect FlashState
                (filter (notFailed errors) (selection w)) w1) as Hloop.
  cbn zeta in Hloop. destruct Hloop as (Hshow & Hflash & Hsel & Htrace).
  assert (Hrun : exec (Modal_done FlashState defaultFlashState errors) w =
                 emit GoToMain
                   (exec (forEach (filter (notFailed errors) (selection w))
                                  (fun drive => deselectDrive (Selection.device drive)))
                         w1)).
  { unfold Modal_done, exec, bind. cbn.
    destruct (forEach _ _ _) as [[] w2]. reflexivity. }
  rewrite Hrun. cbn [emit showErrorsInfo flashState selection trace].
  rewrite Hshow, Hflash, Hsel, Htrace. subst w1. cbn.
  rewrite deselect_notFailed.
  split; [reflexivity | split; [reflexivity | split; [reflexivity | split]]].
  - intros drive. rewrite filter_In, negb_true_iff, notFailed_false_iff.
    reflexivity.
  - repeat rewrite <- app_assoc. reflexivity.
Qed.

End DialogHandlers.

(** * Further properties *)

(** ** Lists and traces *)

Lemma skipn_length_app {A : Type} (l r : list A) :
  skipn (List.length l) (l ++ r)%list = r.
Proof.
  induction l as [| x l IH]; [reflexivity | exact IH].
Qed.

Lemma filter_neg_filter {A : Type} (f : A -> bool) (l : list A) :
  filter f (filter (fun x => negb (f x)) l) = [].
Proof.
  induction l as [| x l IH]; [reflexivity |].
  simpl. destruct (f x) eqn:Hfx; simpl; [exact IH |].
  now rewrite Hfx.
Qed.

Lemma filter_idempotent {A : Type} (f : A -> bool) (l : list A) :
  filter f (filter f l) = filter f l.
Proof.
  induction l as [| x l IH]; [reflexivity |].
  simpl. destruct (f x) eqn:Hfx; simpl; [| exact IH].
  now rewrite Hfx, IH.
Qed.

Lemma filter_split_length {A : Type} (f : A -> bool) (l : list A) :
  (List.length (filter (fun x => negb (f x)) l) + List.length (filter f l))%nat =
  List.length l.
Proof.
  induction l as [| x l IH]; [reflexivity |].
  simpl. destruct (f x); simpl; rewrite <- IH; auto using plus_n_Sm.
Qed.

Lemma deselections_app (t1 t2 : list Effect) :
  deselections (t1 ++ t2) = (deselections t1 ++ deselections t2)%list.
Proof.
  apply flat_map_app.
Qed.

Lemma deselections_calls (drives : list Selection.Drive) :
  deselections (map (fun drive => DeselectDrive (Selection.device drive)) drives) =
  map Selection.device drives.
Proof.
  induction drives as [| d ds IH]; [reflexivity |].
  simpl. now rewrite <- IH.
Qed.

Section MoreDialog.

Variable FlashState : Type.
Variable defaultFlashState : FlashState.

(** The world after [done], component by component. *)
Lemma Modal_done_world (errors : list FlashError) (w : World FlashState) :
  exec (Modal_done FlashState defaultFlashState errors) w =
  {| showErrorsInfo := false;
     flashState := defaultFlashState;
     selection := filter (fun drive => negb (notFailed errors drive)) (selection w);
     trace := (trace w
                 ++ [SetShowErrorsInfo false; ResetState]
                 ++ map (fun drive => DeselectDrive (Selection.device drive))
                        (filter (notFailed errors) (selection w))
                 ++ [GoToMain])%list |}.
Proof.
  set (w1 := exec (resetState FlashState defaultFlashState)
                  (exec (setShowErrorsInfo false) w)).
  pose proof (forEach_deselect FlashState
                (filter (notFailed errors) (selection w)) w1) as Hloop.
  cbn zeta in Hloop. destruct Hloop as (Hshow & Hflash & Hsel & Htrace).
  unfold Modal_done, exec, bind in *. cbn in *.
  destruct (forEach _ _ _) as [[] w2]. cbn in *. unfold emit.
  rewrite Hshow, Hflash, Hsel, Htrace, deselect_notFailed.
  f_equal. now repeat rewrite <- app_assoc.
Qed.

Lemma Modal_done_effects (errors : list FlashError) (w : World FlashState) :
  effectsSince w (exec (Modal_done FlashState defaultFlashState errors) w) =
  ([SetShowErrorsInfo false; ResetState]
     ++ map (fun drive => DeselectDrive (Selection.device drive))
            (filter (notFailed errors) (selection w))
     ++ [GoToMain])%list.
Proof.
  unfold effectsSince. rewrite Modal_done_world. cbn [trace].
  apply skipn_length_app.
Qed.

Lemma Modal_done_deselections (errors : list FlashError) (w : World FlashState) :
  deselections (effectsSince w (exec (Modal_done FlashState defaultFlashState errors) w)) =
  map Selection.device (filter (notFailed errors) (selection w)).
Proof.
  rewrite Modal_done_effects.
  change (deselections ([SetShowErrorsInfo false; ResetState] ++ ?t)%list)
    with (deselections t).
  rewrite deselections_app, deselections_calls. apply app_nil_r.
Qed.

End MoreDialog.

(** ** Retrying the failed targets *)

Section Retry.

Variable FlashState : Type.
Variable defaultFlashState : FlashState.

(** X1: confirming a second time changes nothing more: the selection stays what
    the first confirmation left, and no drive is deselected. *)
Theorem done_twice (errors : list FlashError) (w : World FlashState) :
  let w1 := exec (Modal_done FlashState defaultFlashState errors) w in
  let w2 := exec (Modal_done FlashState defaultFlashState errors) w1 in
  selection w2 = selection w1 /\
  effectsSince w1 w2 = [SetShowErrorsInfo false; ResetState; GoToMain].
Proof.
  cbn zeta. split.
  - rewrite (Modal_done_world _ _ errors (exec _ w)).
    rewrite Modal_done_world. cbn [selection].
    apply filter_idempotent.
  - rewrite Modal_done_effects, Modal_done_world. cbn [selection].
    now rewrite filter_neg_filter.
Qed.

(** X2: with an empty error list every selected drive is deselected, one call
    per drive in the order of the selection, and nothing stays selected. *)
Theorem done_without_errors (w : World FlashState) :
  let w' := exec (Modal_done FlashState defaultFlashState []) w in
  selection w' = [] /\
  deselections (effectsSince w w') = map Selection.device (selection w).
Proof.
  cbn zeta. rewrite Modal_done_deselections, Modal_done_world. cbn [selection].
  split.
  - induction (selection w) as [| d ds IH]; [reflexivity | exact IH].
  - f_equal. induction (selection w) as [| d ds IH]; [reflexivity |].
    simpl. now rewrite IH.
Qed.

(** X3: confirming never deselects a failed device: every device it deselects
    is the device of a drive that was selected, and of no error. *)
Theorem done_never_deselects_failed (errors : list FlashError) (w : World FlashState) :
  let w' := exec (Modal_done FlashState defaultFlashState errors) w in
  Forall (fun driveDevice =>
            (exists drive, In drive (selection w) /\
                           Selection.device drive = driveDevice) /\
            (forall error, In error errors -> device error <> driveDevice))
         (deselections (effectsSince w w')).
Proof.
  cbn zeta. rewrite Modal_done_deselections.
  apply Forall_forall. intros driveDevice Hin.
  apply in_map_iff in Hin. destruct Hin as (drive & Hdev & Hin).
  apply filter_In in Hin. destruct Hin as [Hin Hnf]. split.
  - now exists drive.
  - intros error Herr Heq.
    assert (Hfailed : spec_failedDrive errors drive).
    { exists error. split; [exact Herr | congruence]. }
    apply notFailed_false_iff in Hfailed. congruence.
Qed.

(** X4: when every selected drive is a failed one, confirming leaves the
    selection as it is and deselects nothing. *)
Theorem done_all_failed (errors : list FlashError) (w : World FlashState) :
  Forall (spec_failedDrive errors) (selection w) ->
  let w' := exec (Modal_done FlashState defaultFlashState errors) w in
  selection w' = selection w /\ deselections (effectsSince w w') = [].
Proof.
  intros Hall. cbn zeta.
  rewrite Modal_done_deselections, Modal_done_world. cbn [selection].
  induction Hall as [| d ds Hd _ [IH1 IH2]]; [now split |].
  apply notFailed_false_iff in Hd. simpl. rewrite Hd. simpl.
  split; [now rewrite IH1 | exact IH2].
Qed.

(** X5: confirming accounts for every selected drive once: the drives that stay
    selected and the [deselectDrive] calls add up to the drives that were
    selected. *)
Theorem done_accounts_for_selection (errors : list FlashError) (w : World FlashState) :
  let w' := exec (Modal_done FlashState defaultFlashState errors) w in
  (List.length (selection w') + List.length (deselections (effectsSince w w')))%nat =
  List.length (selection w).
Proof.
  cbn zeta. rewrite Modal_done_deselections, Modal_done_world. cbn [selection].
  rewrite length_map. apply filter_split_length.
Qed.

(** X6: opening the dialog with "more info" and cancelling it is a round trip:
    while open, the dialog lists one table row per error; after the
    cancellation it is gone, and flash state and selection are as before the
    click. *)
Theorem open_then_cancel
        (progress : string -> count -> string)
        (bytesToMegabytes : Num.number -> Num.number)
        (round : Num.number -> Z -> Num.number)
        (errors : list FlashError) (skip : bool) (results : Results)
        (w : World FlashState) :
  let opened := exec (Link_onClick OpenErrorsInfo) w in
  let closed := exec (Modal_cancel FlashState) opened in
  let screen := fun w0 : World FlashState =>
    FlashResults progress bytesToMegabytes round errors skip results
                 (showErrorsInfo w0) in
  option_map (fun modal => List.length (modal_table modal))
             (view_modal (screen opened)) = Some (List.length errors) /\
  view_modal (screen closed) = None /\
  flashState closed = flashState w /\
  selection closed = selection w /\
  effectsSince w closed = [SetShowErrorsInfo true; SetShowErrorsInfo false].
Proof.
  cbn zeta. cbn. unfold ErrorsTable, effectsSince. cbn.
  rewrite length_map, <- app_assoc, skipn_length_app.
  repeat split.
Qed.

End Retry.

(** ** Tooltip and table *)

Lemma append_not_empty (a b : string) : b <> "" -> a ++ b <> "".
Proof.
  intros Hb. destruct a; [exact Hb | discriminate].
Qed.

Lemma formatError_not_empty (error : FlashError) : formatError error <> "".
Proof.
  unfold formatError. apply append_not_empty. discriminate.
Qed.

Lemma occurrences_app (c : ascii) (a b : string) :
  occurrences c (a ++ b) = (occurrences c a + occurrences c b)%nat.
Proof.
  induction a as [| c' a IH]; [reflexivity |].
  simpl. rewrite IH. apply Nat.add_assoc.
Qed.

Lemma formatError_singleLine (error : FlashError) :
  singleLineError error -> singleLine (formatError error).
Proof.
  intros (Hd & Hm & Hc). unfold singleLine, formatError, or_string in *.
  repeat rewrite occurrences_app. rewrite Hd.
  destruct (truthy_string (message error)); [rewrite Hm | rewrite Hc]; reflexivity.
Qed.

Lemma formattedErrors_cons (error next : FlashError) (rest : list FlashError) :
  formattedErrors (error :: next :: rest) =
  formatError error ++ newline ++ formattedErrors (next :: rest).
Proof. reflexivity. Qed.

(** X7: the tooltip line of an error is the Location and Error cells of its row
    in the dialog's table, joined by [": "]: tooltip and dialog never show
    different texts for an error. *)
Theorem tooltip_line_matches_table (error : FlashError) :
  exists target location text,
    tableRow columns error = [target; location; text] /\
    target = description error /\
    formatError error = location ++ ": " ++ text.
Proof.
  exists (description error), (device error), (spec_errorText error).
  split; [apply tableRow_columns | split; [reflexivity |]].
  apply formatError_spec.
Qed.

(** X8: the tooltip text is empty exactly when the error list is. *)
Theorem tooltip_empty_iff (errors : list FlashError) :
  formattedErrors errors = "" <-> errors = [].
Proof.
  split; [| intros ->; reflexivity].
  destruct errors as [| error [| next rest]]; [reflexivity | |]; intros H; exfalso.
  - revert H. apply formatError_not_empty.
  - rewrite formattedErrors_cons in H.
    destruct (formatError error) eqn:Hline; [| discriminate].
    now apply (formatError_not_empty error).
Qed.

(** X9: one line per error: when no device, message or code has a line break,
    the tooltip of [n] errors has [n - 1] line breaks. *)
Theorem tooltip_line_count (errors : list FlashError) :
  Forall singleLineError errors ->
  occurrences lineFeed (formattedErrors errors) = pred (List.length errors).
Proof.
  intros Hall. induction Hall as [| error rest Herr Hrest IH]; [reflexivity |].
  destruct rest as [| next rest'].
  - simpl. apply formatError_singleLine in Herr. exact Herr.
  - rewrite formattedErrors_cons. repeat rewrite occurrences_app.
    rewrite IH. apply formatError_singleLine in Herr. rewrite Herr.
    reflexivity.
Qed.

Lemma tooltip_line_count_witness :
  Forall singleLineError [sample_error; sample_error_without_message] /\
  occurrences lineFeed
    (formattedErrors [sample_error; sample_error_without_message]) = 1%nat.
Proof.
  assert (H : Forall singleLineError [sample_error; sample_error_without_message]).
  { repeat constructor. }
  split; [exact H | exact (tooltip_line_count _ H)].
Defined.

(** X10: the Error cell of a row is blank only for an error that has neither a
    message nor a code. *)
Theorem error_cell_blank_iff (error : FlashError) :
  nth 2 (tableRow columns error) "" = "" <->
  message error = "" /\ code error = "".
Proof.
  rewrite tableRow_columns. cbn [nth]. unfold spec_errorText.
  destruct (message error) eqn:Hm.
  - split; [now intros -> | now intros [_ ->]].
  - split; [discriminate | intros [H _]; discriminate].
Qed.

(** ** The screen as a whole *)

Section Coherence.

Variable progress : string -> count -> string.
Variable bytesToMegabytes : Num.number -> Num.number.
Variable round : Num.number -> Z -> Num.number.

Lemma renderedRows_view (errors : list FlashError) (skip : bool)
      (results : Results) (show : bool) :
  let failedRows :=
    if (failed (devices results) =? 0)%Z then []
    else [failedRow progress errors (failed (devices results))] in
  let successfulRows :=
    if (successful (devices results) =? 0)%Z then []
    else [successfulRow progress (successful (devices results))] in
  renderedRows
    (view_rows (FlashResults progress bytesToMegabytes round errors skip results show)) =
  match keyOrder (devices results) with
  | FailedFirst => (failedRows ++ successfulRows)%list
  | SuccessfulFirst => (successfulRows ++ failedRows)%list
  end.
Proof.
  cbn zeta. unfold FlashResults, Object_entries. cbn [view_rows].
  destruct (keyOrder (devices results)); cbn [map].
  all: unfold summaryRow, truthy_count, renderedRows.
  all: destruct (failed (devices results) =? 0)%Z;
    destruct (successful (devices results) =? 0)%Z; reflexivity.
Qed.

(** X11: when the failure glyph is shown, the icon is gray, no effective speed is
    shown and there is no row of successful devices: every rendered row
    carries the "more info" link. *)
Theorem failure_glyph_screen (errors : list FlashError) (skip : bool)
        (results : Results) (show : bool) :
  let view := FlashResults progress bytesToMegabytes round errors skip results show in
  icon_glyph (view_icon view) = TimesCircleSvg ->
  svg_fill (icon_props (view_icon view)) = "#c6c8c9" /\
  view_speed view = None /\
  view_skipNote view = None /\
  forallb hasMoreInfo (renderedRows (view_rows view)) = true.
Proof.
  cbn zeta. rewrite renderedRows_view.
  unfold FlashResults, DoneIcon.
  cbn [view_icon view_speed view_skipNote allFailed skipped someFailed].
  destruct (successful (devices results) =? 0)%Z; destruct skip;
    cbn; try discriminate.
  intros _. destruct (keyOrder (devices results));
    destruct (failed (devices results) =? 0)%Z; repeat split.
Qed.

(** X12: a green icon means a clean flash: the glyph is the success glyph, the
    effective speed is shown, and no rendered row has a tooltip or a "more
    info" link, so the error dialog cannot be opened from the screen. *)
Theorem green_icon_screen (errors : list FlashError) (skip : bool)
        (results : Results) (show : bool) :
  let view := FlashResults progress bytesToMegabytes round errors skip results show in
  svg_fill (icon_props (view_icon view)) = "#1ac135" ->
  icon_glyph (view_icon view) = CheckCircleSvg /\
  view_speed view = Some (effectiveSpeed bytesToMegabytes round results) /\
  existsb hasMoreInfo (renderedRows (view_rows view)) = false /\
  Forall (fun row => row_tooltip row = None) (renderedRows (view_rows view)).
Proof.
  cbn zeta. rewrite renderedRows_view.
  unfold FlashResults, DoneIcon.
  cbn [view_icon view_speed allFailed skipped someFailed].
  destruct (successful (devices results) =? 0)%Z;
    destruct (failed (devices results) =? 0)%Z; destruct skip;
    cbn; try discriminate.
  all: intros _; destruct (keyOrder (devices results));
    repeat split; repeat constructor.
Qed.

(** X13: the screen has exactly one "more info" link when some device failed and
    none otherwise, whatever the error list holds. *)
Theorem more_info_count (errors : list FlashError) (skip : bool)
        (results : Results) (show : bool) :
  List.length
    (filter hasMoreInfo
       (renderedRows
          (view_rows
             (FlashResults progress bytesToMegabytes round errors skip results show)))) =
  if (failed (devices results) =? 0)%Z then 0%nat else 1%nat.
Proof.
  rewrite renderedRows_view.
  destruct (keyOrder (devices results));
    destruct (failed (devices results) =? 0)%Z;
    destruct (successful (devices results) =? 0)%Z; reflexivity.
Qed.

(** X14: in every rendered row the circle is red or green with [fill] and [color]
    equal, and the red circle, the tooltip and the "more info" link go
    together: a row has all three or none. *)
Theorem row_marks_agree (errors : list FlashError) (skip : bool)
        (results : Results) (show : bool) :
  Forall
    (fun row =>
       circle_fill (row_circle row) = circle_color (row_circle row) /\
       ((circle_fill (row_circle row) = "#ff4444" /\
         row_tooltip row = Some (formattedErrors errors) /\
         row_moreInfo row = Some OpenErrorsInfo) \/
        (circle_fill (row_circle row) = "#1ac135" /\
         row_tooltip row = None /\
         row_moreInfo row = None)))
    (renderedRows
       (view_rows
          (FlashResults progress bytesToMegabytes round errors skip results show))).
Proof.
  rewrite renderedRows_view.
  destruct (keyOrder (devices results));
    destruct (failed (devices results) =? 0)%Z;
    destruct (successful (devices results) =? 0)%Z; cbn.
  all: repeat (apply Forall_cons; [split; [reflexivity |] |]); try apply Forall_nil.
  all: cbn; first [now left | now right].
Qed.

End Coherence.

Lemma failure_glyph_screen_witness :
  icon_glyph
    (view_icon (FlashResults sample_progress sample_bytesToMegabytes sample_round
                             [sample_error] false sample_failed_results false)) =
    TimesCircleSvg /\
  view_speed (FlashResults sample_progress sample_bytesToMegabytes sample_round
                           [sample_error] false sample_failed_results false) = None.
Proof.
  split; [reflexivity |].
  apply (failure_glyph_screen sample_progress sample_bytesToMegabytes sample_round
                              [sample_error] false sample_failed_results false
                              eq_refl).
Defined.

Lemma green_icon_screen_witness :
  svg_fill
    (icon_props
       (view_icon (FlashResults sample_progress sample_bytesToMegabytes sample_round
                                [] false sample_clean_results false))) = "#1ac135" /\
  icon_glyph
    (view_icon (FlashResults sample_progress sample_bytesToMegabytes sample_round
                             [] false sample_clean_results false)) = CheckCircleSvg.
Proof.
  split; [reflexivity |].
  apply (green_icon_screen sample_progress sample_bytesToMegabytes sample_round
                           [] false sample_clean_results false eq_refl).
Defined.

Lemma done_all_failed_witness :
  Forall (spec_failedDrive [sample_error; sample_error_without_message])
         [Selection.mkDrive "/dev/sdc" "Kingston"; Selection.mkDrive "/dev/sdb" "SanDisk"] /\
  selection
    (exec (Modal_done unit tt [sample_error; sample_error_without_message])
          {| showErrorsInfo := true; flashState := tt;
             selection := [Selection.mkDrive "/dev/sdc" "Kingston";
                           Selection.mkDrive "/dev/sdb" "SanDisk"];
             trace := [] |}) =
  [Selection.mkDrive "/dev/sdc" "Kingston"; Selection.mkDrive "/dev/sdb" "SanDisk"].
Proof.
  assert (H : Forall (spec_failedDrive [sample_error; sample_error_without_message])
                     [Selection.mkDrive "/dev/sdc" "Kingston";
                      Selection.mkDrive "/dev/sdb" "SanDisk"]).
  { constructor; [| constructor; [| constructor]].
    - exists sample_error_without_message. split; [right; left |]; reflexivity.
    - exists sample_error. split; [left |]; reflexivity. }
  split; [exact H |].
  apply (done_all_failed unit tt [sample_error; sample_error_without_message]
           {| showErrorsInfo := true; flashState := tt;
              selection := [Selection.mkDrive "/dev/sdc" "Kingston";
                            Selection.mkDrive "/dev/sdb" "SanDisk"];
              trace := [] |} H).
Defined.

(** ** Division by zero in the effective speed *)

Section SpeedEdges.

Variable bytesToMegabytes : Num.number -> Num.number.
Variable round : Num.number -> Z -> Num.number.

(** X15: when no byte was written ([bytesWritten] is [0] or [-0]) the speed that
    is converted and rounded is never a finite number: it is an infinity or
    NaN, whatever the size and the average speed are. *)
Theorem speed_of_nothing_written (results : Results) (s : bool) :
  bytesWritten results = S754_zero s ->
  exists q,
    effectiveSpeed bytesToMegabytes round results = round (bytesToMegabytes q) 1 /\
    (q = S754_nan \/ exists sign, q = S754_infinity sign).
Proof.
  intros Hzero. unfold effectiveSpeed. rewrite Hzero.
  eexists. split; [reflexivity |].
  unfold Num.div.
  destruct (averageFlashingSpeed results) as [sa | sa | | sa ma ea];
    destruct (size (sourceMetadata results)) as [ss | ss | | ss ms es];
    cbn; eauto.
Qed.

(** X16: when the average flashing speed is [0] or [-0] the speed that is
    converted and rounded is a zero or NaN: the screen never shows a nonzero
    speed computed from a zero average. *)
Theorem speed_of_zero_average (results : Results) (s : bool) :
  averageFlashingSpeed results = S754_zero s ->
  exists q,
    effectiveSpeed bytesToMegabytes round results = round (bytesToMegabytes q) 1 /\
    (q = S754_nan \/ exists sign, q = S754_zero sign).
Proof.
  intros Hzero. unfold effectiveSpeed. rewrite Hzero.
  eexists. split; [reflexivity |].
  unfold Num.div.
  destruct (bytesWritten results) as [sb | sb | | sb mb eb];
    destruct (size (sourceMetadata results)) as [ss | ss | | ss ms es];
    cbn; eauto.
Qed.

End SpeedEdges.

Lemma speed_of_nothing_written_witness :
  bytesWritten sample_failed_results = S754_zero false /\
  exists q,
    effectiveSpeed sample_bytesToMegabytes sample_round sample_failed_results =
      sample_round (sample_bytesToMegabytes q) 1 /\
    (q = S754_nan \/ exists sign, q = S754_infinity sign).
Proof.
  split; [reflexivity |].
  apply (speed_of_nothing_written sample_bytesToMegabytes sample_round
                                  sample_failed_results false eq_refl).
Defined.

Lemma speed_of_zero_average_witness :
  averageFlashingSpeed sample_stalled_results = S754_zero false /\
  exists q,
    effectiveSpeed sample_bytesToMegabytes sample_round sample_stalled_results =
      sample_round (sample_bytesToMegabytes q) 1 /\
    (q = S754_nan \/ exists sign, q = S754_zero sign).
Proof.
  split; [reflexivity |].
  apply (speed_of_zero_average sample_bytesToMegabytes sample_round
                               sample_stalled_results false eq_refl).
Defined.
